(** * House price prediction service: a shallow embedding of [main.py]

    The service of [main.py] loads two pickled artifacts (a fitted scaler and
    a fitted regression model) when the module is imported, and then answers
    two HTTP routes: [GET /] (a fixed HTML page) and [POST /predict] (five
    numeric fields in, a rescaled prediction out).

    What is modelled, and how:
    - Python [float] and numpy [float64] values are Rocq's primitive binary64
      floats ([PrimFloat.float]). Rocq has a single NaN, so equality of
      floats is bit equality up to the NaN payload.
    - An exception is a value [Exception cls msg] ([str(e)] is [msg]); code
      that may raise returns a [result]. The exceptions modelled are instances
      of Python's [Exception], which is what [except Exception] catches.
    - The two artifacts are Python objects of any class, so they are records
      of what the handler asks of them, each of which may raise: reading
      [n_features_in_] and calling [transform] for the scaler, calling
      [predict] for the model. What [predict] returns is a sequence of
      objects of any kind: a prediction is given by what multiplying it by
      100000 evaluates to, and that product by what the validation of the
      [predicted_price] field makes of it. A [numpy.float64] is the
      prediction whose product is the binary64 product and always validates. The calls
      the handler makes to the artifacts are logged, so that "no pipeline
      computation occurs" can be stated.
    - The process state is the pair of module globals [model] and [scaler].
      No handler assigns to them.
    - The request body is a parsed JSON value; the [HouseFeatures] schema is
      validated the way pydantic validates a [float] field before FastAPI
      enters the handler. The response is what FastAPI builds from the
      handler's return value or from the [HTTPException] it raises; in the
      JSON it sends, a float that is not finite is written [null].
    - Only the two routes that [main.py] declares are modelled: what the
      framework answers on other paths and methods is not. *)

From Stdlib Require Import Floats Uint63 ZArith String Ascii List DecimalString Lia Bool
  Permutation.
From stdpp Require Import base option gmap strings.
Import ListNotations.
Local Open Scope string_scope.
Local Open Scope list_scope.

(** ** Exceptions and the error monad *)

(** A raised Python exception: its class name and [str(e)]. *)
Record exn : Type := Exception { exc_class : string; exc_str : string }.

Inductive result (A : Type) : Type :=
| Ok (a : A)
| Raise (e : exn).
Arguments Ok {A} a.
Arguments Raise {A} e.

Definition ValueError (msg : string) : exn := Exception "ValueError" msg.
Definition IndexError (msg : string) : exn := Exception "IndexError" msg.
Definition RuntimeError (msg : string) : exn := Exception "RuntimeError" msg.
Definition FileNotFoundError (msg : string) : exn := Exception "FileNotFoundError" msg.
Definition IsADirectoryError (msg : string) : exn := Exception "IsADirectoryError" msg.
Definition AttributeError (msg : string) : exn := Exception "AttributeError" msg.
Definition ValidationError (msg : string) : exn := Exception "ValidationError" msg.

(** ** Numeric data *)

(** A two-dimensional numpy array, as its list of rows. *)
Definition matrix : Type := list (list float).

(** [X.shape[1]]: the column count (the width of the rows). *)
Definition shape1 (X : matrix) : Z := Z.of_nat (length (hd [] X)).

(** [str(n)] for a Python int, as an f-string renders it. *)
Definition str_of_int (n : Z) : string := NilZero.string_of_int (Z.to_int n).

(** [float(n)] for a Python int that a float can hold: the nearest binary64
    value, ties to even. It is infinite exactly where Python raises
    [OverflowError]. *)
Definition float_of_int (n : Z) : float :=
  SF2Prim (binary_normalize prec emax n 0 false).

(** The float of an int, or nothing for an int too large for a float. *)
Definition int_as_float (n : Z) : option float :=
  if is_infinity (float_of_int n) then None else Some (float_of_int n).

(** ** The artifacts *)

(** A value handed to [PredictionResponse] as [predicted_price], given by
    what the validation of that [float] field makes of it: the float the
    response stores, or the exception the construction raises. *)
Record product : Type := {
  as_predicted_price : result float
}.

(** One of the objects that [model.predict] returns, given by what
    [prediction * 100000] evaluates to. *)
Record prediction : Type := {
  times_100000 : result product
}.

(** A [numpy.float64]: its product with the int is the binary64 product, a
    float that the response takes as it is. *)
Definition float64 (y : float) : prediction :=
  {| times_100000 := Ok {| as_predicted_price := Ok (y * 100000)%float |} |}.

(** The loaded scaler: reading its attribute [n_features_in_] (an int, or
    the exception the read raises) and calling its method [transform]. *)
Record Scaler : Type := {
  n_features_in_ : result Z;
  transform : matrix -> result matrix
}.

(** The loaded model: [predict] returns a sequence of predictions. *)
Record Model : Type := {
  predict : matrix -> result (list prediction)
}.

(** The module globals [model] and [scaler], set once when the module loads. *)
Record Process : Type := {
  model : Model;
  scaler : Scaler
}.

(** ** The pipeline monad: exceptions plus a log of artifact calls *)

Inductive call : Type :=
| CallTransform (X : matrix)
| CallPredict (X : matrix).

Definition Pipe (A : Type) : Type := (result A * list call)%type.

Definition ret {A : Type} (a : A) : Pipe A := (Ok a, []).

Definition raise {A : Type} (e : exn) : Pipe A := (Raise e, []).

(** A step that calls no artifact. *)
Definition lift {A : Type} (r : result A) : Pipe A := (r, []).

Definition bind {A B : Type} (m : Pipe A) (k : A -> Pipe B) : Pipe B :=
  match m with
  | (Ok a, log) => let (r, log') := k a in (r, log ++ log')
  | (Raise e, log) => (Raise e, log)
  end.

Notation "'do' x <- m ; k" := (bind m (fun x => k))
  (at level 10, x name, m at level 100, k at level 200).
Notation "'do_' m ; k" := (bind m (fun _ => k))
  (at level 10, m at level 100, k at level 200).

(** [scaler.transform(X)], logged. *)
Definition call_transform (s : Scaler) (X : matrix) : Pipe matrix :=
  (transform s X, [CallTransform X]).

(** [model.predict(X)], logged. *)
Definition call_predict (m : Model) (X : matrix) : Pipe (list prediction) :=
  (predict m X, [CallPredict X]).

(** [y[0]] on a one-dimensional array: numpy raises [IndexError] when it is
    empty. *)
Definition getitem0 (y : list prediction) : Pipe prediction :=
  match y with
  | x :: _ => ret x
  | [] => raise (IndexError "index 0 is out of bounds for axis 0 with size 0")
  end.

(** ** Schemas *)

(** The input schema: five required [float] fields, in declaration order. *)
Record HouseFeatures : Type := {
  MedInc : float;
  HouseAge : float;
  AveRooms : float;
  AveBedrms : float;
  AvePop : float
}.

(** The names of the schema's fields, in declaration order. *)
Definition field_names : list string :=
  ["MedInc"; "HouseAge"; "AveRooms"; "AveBedrms"; "AvePop"].

(** [features.dict()]: the fields by name, in declaration order. *)
Definition dict (features : HouseFeatures) : list (string * float) :=
  [("MedInc", MedInc features); ("HouseAge", HouseAge features);
   ("AveRooms", AveRooms features); ("AveBedrms", AveBedrms features);
   ("AvePop", AvePop features)].

(** The output schema. *)
Record PredictionResponse : Type := {
  predicted_price : float;
  input_features : list (string * float)
}.

(** ** JSON values *)

(** A parsed JSON value. A number written with a fraction or an exponent is
    the binary64 value the parser gives it ([JNum]); a number written as an
    integer is that integer, of any size ([JInt]). An object keeps its
    members in the order they were sent. *)
#[local] Set Warnings "-register-all".
Inductive json : Type :=
| JNull
| JBool (b : bool)
| JNum (x : float)
| JInt (n : Z)
| JStr (s : string)
| JArr (items : list json)
| JObj (members : list (string * json)).
#[local] Set Warnings "register-all".

(** The value a parsed object holds for a key: of members with the same key
    the last one wins, as in the Python dict the parser builds. *)
Fixpoint dict_get (key : string) (members : list (string * json)) : option json :=
  match members with
  | [] => None
  | (k, v) :: rest =>
      match dict_get key rest with
      | Some v' => Some v'
      | None => if String.eqb k key then Some v else None
      end
  end.


(** A float as the response writes it: a number, or [null] for a NaN or an
    infinity. *)
Definition json_of_float (x : float) : json :=
  if is_finite x then JNum x else JNull.

(** ** Requests and responses *)

(** The requests on the two routes that [main.py] declares. *)
Inductive request : Type :=
| GET_root
| POST_predict (body : json).

(** What a validation error says about a field. *)
Inductive error_type : Type :=
| missing
| float_type
| float_parsing
| dict_type.

(** One entry of a validation error's detail: the place and the kind. *)
Record field_error : Type := {
  loc : list string;
  err_type : error_type
}.

Inductive response : Type :=
| HTMLResponse (content : string)
| JSONResponse (content : PredictionResponse)
| RequestValidationError (detail : list field_error)
| HTTPException (status_code : Z) (detail : string).

(** The HTTP status of a response. *)
Definition status (r : response) : Z :=
  match r with
  | HTMLResponse _ => 200
  | JSONResponse _ => 200
  | RequestValidationError _ => 422
  | HTTPException code _ => code
  end.

(** The JSON body FastAPI sends for an [HTTPException]. *)
Definition http_exception_content (detail : string) : json :=
  JObj [("detail", JStr detail)].

(** The members a dict of floats becomes in the JSON that is sent. *)
Definition members_of_dict (d : list (string * float)) : list (string * json) :=
  map (fun kv => (fst kv, json_of_float (snd kv))) d.


(** ** The frontend page

    The page is a Python string literal; it is kept here line by line, the
    lines joined by a newline, with [dq] standing for the double quote
    character. The house glyph of the heading is its four UTF-8 bytes. *)

Definition dq : string := String "034"%char EmptyString.

Definition nl : string := String "010"%char EmptyString.

Definition frontend_lines : list string := [
  EmptyString;
  "    <!DOCTYPE html>";
  "    <html>";
  "    <head>";
  "        <title>House Price Prediction</title>";
  ("        <link href=" ++ dq ++ "https://fonts.googleapis.com/css2?family=Roboto:wght@400;700&display=swap" ++ dq ++ " rel=" ++ dq ++ "stylesheet" ++ dq ++ ">")%string;
  "        <style>";
  "            body {";
  "                font-family: 'Roboto', sans-serif;";
  "                background: linear-gradient(135deg, #6a11cb 0%, #2575fc 100%);";
  "                display: flex;";
  "                justify-content: center;";
  "                align-items: center;";
  "                height: 100vh;";
  "                margin: 0;";
  "            }";
  "            .card {";
  "                background: white;";
  "                padding: 30px;";
  "                border-radius: 15px;";
  "                box-shadow: 0 4px 20px rgba(0,0,0,0.2);";
  "                max-width: 400px;";
  "                width: 100%;";
  "            }";
  "            h1 { color: #2575fc; text-align: center; }";
  "            input, button {";
  "                width: 100%;";
  "                padding: 10px;";
  "                margin: 8px 0;";
  "                border-radius: 8px;";
  "                border: 1px solid #ccc;";
  "            }";
  "            button {";
  "                background: #2575fc;";
  "                color: white;";
  "                border: none;";
  "                cursor: pointer;";
  "                font-size: 1.1em;";
  "            }";
  "            button:hover { background: #1a5edc; }";
  "            #result { margin-top: 10px; text-align: center; font-weight: bold; }";
  "        </style>";
  "    </head>";
  "    <body>";
  ("        <div class=" ++ dq ++ "card" ++ dq ++ ">")%string;
  "            <h1>🏠 Predict Price</h1>";
  ("            <form id=" ++ dq ++ "predictionForm" ++ dq ++ ">")%string;
  ("                <input type=" ++ dq ++ "number" ++ dq ++ " step=" ++ dq ++ "any" ++ dq ++ " name=" ++ dq ++ "MedInc" ++ dq ++ " placeholder=" ++ dq ++ "Median Income" ++ dq ++ " required>")%string;
  ("                <input type=" ++ dq ++ "number" ++ dq ++ " step=" ++ dq ++ "any" ++ dq ++ " name=" ++ dq ++ "HouseAge" ++ dq ++ " placeholder=" ++ dq ++ "House Age" ++ dq ++ " required>")%string;
  ("                <input type=" ++ dq ++ "number" ++ dq ++ " step=" ++ dq ++ "any" ++ dq ++ " name=" ++ dq ++ "AveRooms" ++ dq ++ " placeholder=" ++ dq ++ "Average Rooms" ++ dq ++ " required>")%string;
  ("                <input type=" ++ dq ++ "number" ++ dq ++ " step=" ++ dq ++ "any" ++ dq ++ " name=" ++ dq ++ "AveBedrms" ++ dq ++ " placeholder=" ++ dq ++ "Average Bedrooms" ++ dq ++ " required>")%string;
  ("                <input type=" ++ dq ++ "number" ++ dq ++ " step=" ++ dq ++ "any" ++ dq ++ " name=" ++ dq ++ "AvePop" ++ dq ++ " placeholder=" ++ dq ++ "Average Population" ++ dq ++ " required>")%string;
  ("                <button type=" ++ dq ++ "submit" ++ dq ++ ">Predict Price</button>")%string;
  "            </form>";
  ("            <div id=" ++ dq ++ "result" ++ dq ++ "></div>")%string;
  "        </div>";
  "        <script>";
  ("            document.getElementById(" ++ dq ++ "predictionForm" ++ dq ++ ").addEventListener(" ++ dq ++ "submit" ++ dq ++ ", async function(e) {")%string;
  "                e.preventDefault();";
  "                const formData = new FormData(e.target);";
  "                const data = Object.fromEntries(formData.entries());";
  "                for (let key in data) data[key] = parseFloat(data[key]);";
  "                ";
  ("                const response = await fetch(" ++ dq ++ "/predict" ++ dq ++ ", {")%string;
  ("                    method: " ++ dq ++ "POST" ++ dq ++ ",")%string;
  ("                    headers: { " ++ dq ++ "Content-Type" ++ dq ++ ": " ++ dq ++ "application/json" ++ dq ++ " },")%string;
  "                    body: JSON.stringify(data)";
  "                });";
  "                const result = await response.json();";
  "                if (response.ok) {";
  ("                    document.getElementById(" ++ dq ++ "result" ++ dq ++ ").textContent = " ++ dq ++ "Predicted Price: $" ++ dq ++ " + result.predicted_price.toFixed(2);")%string;
  ("                    document.getElementById(" ++ dq ++ "result" ++ dq ++ ").style.color = " ++ dq ++ "green" ++ dq ++ ";")%string;
  "                } else {";
  ("                    document.getElementById(" ++ dq ++ "result" ++ dq ++ ").textContent = " ++ dq ++ "Error: " ++ dq ++ " + result.detail;")%string;
  ("                    document.getElementById(" ++ dq ++ "result" ++ dq ++ ").style.color = " ++ dq ++ "red" ++ dq ++ ";")%string;
  "                }";
  "            });";
  "        </script>";
  "    </body>";
  "    </html>";
  "    "
].

(** [frontend()]: the handler of [GET /] returns this constant. *)
Definition frontend : string := String.concat nl frontend_lines.

(** ** Counting the occurrences of a name in a page *)

(** The number of places of [s] at which [sub] starts. *)
Fixpoint count_occurrences (sub s : string) : nat :=
  match s with
  | EmptyString => 0
  | String _ rest =>
      (if String.prefix sub s then 1 else 0) + count_occurrences sub rest
  end.

(** The part of [s] from the first [start] up to the first [stop] after it,
    both included; the empty string when either is absent. *)
Definition element (start stop s : string) : string :=
  match String.index 0 start s with
  | Some i =>
      match String.index i stop s with
      | Some j => String.substring i (j + String.length stop - i) s
      | None => EmptyString
      end
  | None => EmptyString
  end.

(** Whether [sub] occurs in [s]. *)
Definition contains (sub s : string) : bool := (0 <? count_occurrences sub s)%nat.

(** The form element of a page. *)
Definition form_of (page : string) : string := element "<form" "</form>" page.

(** ** The file system the module loads from *)

Inductive fs_node : Type :=
| RegularFile (data : list Byte.byte)
| Directory.

(** Whether a path ends with the separator. *)
Fixpoint ends_with_sep (path : string) : bool :=
  match path with
  | EmptyString => false
  | String c EmptyString => Ascii.eqb c "/"%char
  | String _ rest => ends_with_sep rest
  end.

(** [os.path.join(a, b)] on POSIX. *)
Definition os_path_join (a b : string) : string :=
  if String.prefix "/" b then b
  else if String.eqb a EmptyString || ends_with_sep a then a ++ b
  else a ++ "/" ++ b.

(** Sequencing of two steps that may raise. *)
Definition and_then {A B : Type} (r : result A) (k : A -> result B) : result B :=
  match r with
  | Ok a => k a
  | Raise e => Raise e
  end.

(** The state of the process: the module failed to load, or it loaded and the
    application serves requests. *)
Inductive proc_state : Type :=
| Crashed (e : exn)
| Serving (p : Process).

(** ** Stub artifacts and sample requests

    Small artifacts of the kind a test substitutes for the pickled ones, and
    the request of the specification's example scenario. *)

(** A scaler that records width [n] and leaves its input as it is. *)
Definition identity_scaler (n : Z) : Scaler :=
  {| n_features_in_ := Ok n; transform := fun X => Ok X |}.

(** A scaler whose [transform] raises [e]. *)
Definition raising_scaler (n : Z) (e : exn) : Scaler :=
  {| n_features_in_ := Ok n; transform := fun _ => Raise e |}.

(** A scaler object without the attribute [n_features_in_]. *)
Definition unfitted_scaler : Scaler :=
  {| n_features_in_ :=
       Raise (AttributeError "'Scaler' object has no attribute 'n_features_in_'");
     transform := fun X => Ok X |}.

(** A model that predicts the float64 [y] for every row. *)
Definition constant_model (y : float) : Model :=
  {| predict := fun X => Ok (map (fun _ => float64 y) X) |}.

(** A prediction that is no number: it can be multiplied, and the product is
    refused as a [predicted_price]. *)
Definition text_prediction : prediction :=
  {| times_100000 :=
       Ok {| as_predicted_price :=
               Raise (ValidationError "1 validation error for PredictionResponse") |} |}.

(** A model that predicts such a value for every row. *)
Definition text_model : Model :=
  {| predict := fun X => Ok (map (fun _ => text_prediction) X) |}.

#[local] Set Warnings "-inexact-float".

Definition sample_prediction : float := 4.526.

Definition sample_process : Process :=
  {| model := constant_model sample_prediction; scaler := identity_scaler 5 |}.

(** The same model behind a scaler fitted on eight columns. *)
Definition mismatched_process : Process :=
  {| model := constant_model sample_prediction; scaler := identity_scaler 8 |}.

(** The same model behind a scaler that refuses its input. *)
Definition refusing_process : Process :=
  {| model := constant_model sample_prediction;
     scaler := raising_scaler 5 (ValueError "Input X contains infinity") |}.

(** A model whose prediction is no number, behind the sample scaler. *)
Definition text_process : Process :=
  {| model := text_model; scaler := identity_scaler 5 |}.

Definition sample_features : HouseFeatures :=
  {| MedInc := 8.3; HouseAge := 41; AveRooms := 6.98; AveBedrms := 1.02;
     AvePop := 322 |}.

Definition sample_members : list (string * json) :=
  [("MedInc", JNum 8.3); ("HouseAge", JNum 41); ("AveRooms", JNum 6.98);
   ("AveBedrms", JNum 1.02); ("AvePop", JNum 322)].


(** Members that the schema does not declare. *)
Definition extra_members : list (string * json) :=
  [("Latitude", JNum 37.88); ("note", JStr "corner lot"); ("tags", JArr [])].






#[local] Set Warnings "inexact-float".


(** The value of a string of decimal digits. *)
Fixpoint digits_value (s : string) (acc : Z) : option Z :=
  match s with
  | EmptyString => Some acc
  | String c rest =>
      let d := (Z.of_nat (nat_of_ascii c) - 48)%Z in
      if (0 <=? d)%Z && (d <=? 9)%Z then digits_value rest (10 * acc + d)%Z
      else None
  end.

(** [float(s)] restricted to the strings of at most fifteen decimal digits,
    which it reads exactly; every other string is refused here. It stands for
    [float(s)] in the closed examples, none of which sends another string
    that reads as a float. *)
Definition digits_as_float (s : string) : option float :=
  if (0 <? String.length s)%nat && (String.length s <=? 15)%nat
  then option_map (fun n => PrimFloat.of_uint63 (Uint63.of_Z n)) (digits_value s 0)
  else None.

(** [repr(s)] restricted to the strings it writes between single quotes with
    no escape (printable ASCII other than the quote and the backslash). It
    stands for [repr] in the closed examples, whose paths are of that kind. *)
Definition plain_repr (s : string) : string := "'" ++ s ++ "'".

(** A loader that finds a given artifact in every file. *)
Definition load_always {A : Type} (a : A) (data : list Byte.byte) : result A := Ok a.

(** A directory that holds both artifact files, and one that holds only the
    model file. *)
Definition loaded_fs : gmap string fs_node :=
  <[ "/srv/app/linear_regression_model.pkl" := RegularFile [] ]>
    (<[ "/srv/app/scaler.pkl" := RegularFile [] ]> ∅).

Definition model_only_fs : gmap string fs_node :=
  <[ "/srv/app/linear_regression_model.pkl" := RegularFile [] ]> ∅.

(** A directory where the model file should be, beside a scaler file. *)
Definition directory_fs : gmap string fs_node :=
  <[ "/srv/app/linear_regression_model.pkl" := Directory ]>
    (<[ "/srv/app/scaler.pkl" := RegularFile [] ]> ∅).

(** A loader that fails on every file. *)
Definition load_never {A : Type} (e : exn) (data : list Byte.byte) : result A :=
  Raise e.

(** A model that predicts nothing, and one that predicts two values. *)
Definition empty_model : Model := {| predict := fun _ => Ok [] |}.

Definition two_output_model (y z : float) : Model :=
  {| predict := fun _ => Ok [float64 y; float64 z] |}.

(** The members of the sample request in the opposite order. *)
Definition shuffled_members : list (string * json) :=
  [("AvePop", JNum (AvePop sample_features));
   ("AveBedrms", JNum (AveBedrms sample_features));
   ("AveRooms", JNum (AveRooms sample_features));
   ("HouseAge", JNum (HouseAge sample_features));
   ("MedInc", JNum (MedInc sample_features))].

(** ** Reading a page back *)




(** Whether the five features are finite floats. *)
Definition finite_features (features : HouseFeatures) : bool :=
  is_finite (MedInc features) && is_finite (HouseAge features)
  && is_finite (AveRooms features) && is_finite (AveBedrms features)
  && is_finite (AvePop features).

(** ** The service *)

Section Service.

(** [float(s)] for a string [s], as the schema's coercion applies it: [None]
    where Python raises [ValueError]. *)
Variable str_as_float : string -> option float.

(** [repr(s)] for a string [s]: the text between quotes, with its escapes,
    as the message of an [OSError] shows the file name. *)
Variable py_repr : string -> string.

(** The directory of [main.py], and what [pickle.load] makes of a file's
    bytes read as the model, and as the scaler. *)
Variable BASE_DIR : string.
Variable pickle_load_model : list Byte.byte -> result Model.
Variable pickle_load_scaler : list Byte.byte -> result Scaler.

Definition MODEL_FILE : string := os_path_join BASE_DIR "linear_regression_model.pkl".

Definition SCALER_FILE : string := os_path_join BASE_DIR "scaler.pkl".

(** *** Module load *)

(** [open(path, "rb")] followed by reading the file: the bytes, or the
    [OSError] the open raises, whose text ends with [repr(path)]. *)
Definition open_rb (fs : gmap string fs_node) (path : string) : result (list Byte.byte) :=
  match fs !! path with
  | Some (RegularFile data) => Ok data
  | Some Directory =>
      Raise (IsADirectoryError ("[Errno 21] Is a directory: " ++ py_repr path))
  | None =>
      Raise (FileNotFoundError ("[Errno 2] No such file or directory: " ++ py_repr path))
  end.

(** The body of the module's [try]: both files are opened and unpickled, the
    model first. *)
Definition load_artifacts (fs : gmap string fs_node) : result Process :=
  and_then (open_rb fs MODEL_FILE) (fun model_bytes =>
  and_then (pickle_load_model model_bytes) (fun model =>
  and_then (open_rb fs SCALER_FILE) (fun scaler_bytes =>
  and_then (pickle_load_scaler scaler_bytes) (fun scaler =>
  Ok {| model := model; scaler := scaler |})))).

(** Importing the module: [except FileNotFoundError] re-raises as a
    [RuntimeError]; any other exception leaves the [try] as it is. Either way
    the import fails and no application exists. *)
Definition startup (fs : gmap string fs_node) : proc_state :=
  match load_artifacts fs with
  | Ok p => Serving p
  | Raise e =>
      if String.eqb (exc_class e) "FileNotFoundError"
      then Crashed (RuntimeError (" Required file missing: " ++ exc_str e))
      else Crashed e
  end.

(** *** Schema validation *)

(** The coercion of a [float] field: a number as it is, an integer as its
    float unless it is too large for one, a boolean as 1 or 0, a string
    through [float(s)]; nothing else is a float. *)
Definition float_validator (v : json) : option float :=
  match v with
  | JNum x => Some x
  | JInt n => int_as_float n
  | JBool b => Some (if b then 1%float else 0%float)
  | JStr s => str_as_float s
  | JNull | JArr _ | JObj _ => None
  end.

(** The kind of error reported for a value that is not coerced: a string is
    reported as one that does not parse, anything else as no number. *)
Definition rejection_type (v : json) : error_type :=
  match v with
  | JStr _ => float_parsing
  | _ => float_type
  end.

Definition validate_field (members : list (string * json)) (name : string)
  : field_error + float :=
  match dict_get name members with
  | None => inl {| loc := ["body"; name]; err_type := missing |}
  | Some v =>
      match float_validator v with
      | Some x => inr x
      | None => inl {| loc := ["body"; name]; err_type := rejection_type v |}
      end
  end.

Definition errors_of (r : field_error + float) : list field_error :=
  match r with
  | inl e => [e]
  | inr _ => []
  end.

(** Validation of the request body against [HouseFeatures]: every field is
    checked, and the errors of all of them are reported together. Members
    the schema does not declare are not looked at. *)
Definition validate_HouseFeatures (body : json) : list field_error + HouseFeatures :=
  match body with
  | JObj members =>
      let r1 := validate_field members "MedInc" in
      let r2 := validate_field members "HouseAge" in
      let r3 := validate_field members "AveRooms" in
      let r4 := validate_field members "AveBedrms" in
      let r5 := validate_field members "AvePop" in
      match r1, r2, r3, r4, r5 with
      | inr x1, inr x2, inr x3, inr x4, inr x5 =>
          inr {| MedInc := x1; HouseAge := x2; AveRooms := x3;
                 AveBedrms := x4; AvePop := x5 |}
      | _, _, _, _, _ =>
          inl (errors_of r1 ++ errors_of r2 ++ errors_of r3 ++ errors_of r4
               ++ errors_of r5)
      end
  | _ => inl [{| loc := ["body"]; err_type := dict_type |}]
  end.

(** *** The prediction handler *)

(** [np.array([[...]])]: one row, the five fields in schema order. *)
Definition input_data (features : HouseFeatures) : matrix :=
  [[MedInc features; HouseAge features; AveRooms features;
    AveBedrms features; AvePop features]].

(** The text of the width check's [ValueError]. *)
Definition width_message (expected got : Z) : string :=
  "Scaler expects " ++ str_of_int expected ++ " features, got " ++ str_of_int got.

(** The width check against the scaler's recorded input width; reading the
    attribute may itself raise. *)
Definition check_width (s : Scaler) (X : matrix) : Pipe unit :=
  do n <- lift (n_features_in_ s);
  if negb (shape1 X =? n)%Z
  then raise (ValueError (width_message n (shape1 X)))
  else ret tt.

(** The body of the handler's [try]: the width check, the two artifact
    calls, the first prediction, its product with 100000, and the
    construction of the response, which validates the product as the float
    [predicted_price]. *)
Definition predict_house_price_body (p : Process) (features : HouseFeatures)
  : Pipe PredictionResponse :=
  do_ check_width (scaler p) (input_data features);
  do input_scaled <- call_transform (scaler p) (input_data features);
  do y <- call_predict (model p) input_scaled;
  do prediction <- getitem0 y;
  do scaled <- lift (times_100000 prediction);
  do price <- lift (as_predicted_price scaled);
  ret {| predicted_price := price; input_features := dict features |}.

(** The handler of [POST /predict]: the catch-all turns any exception into an
    [HTTPException] with status 500. The second component is the log of the
    artifact calls made. *)
Definition predict_house_price (p : Process) (features : HouseFeatures)
  : response * list call :=
  match predict_house_price_body p features with
  | (Ok r, log) => (JSONResponse r, log)
  | (Raise e, log) => (HTTPException 500 ("Prediction error: " ++ exc_str e), log)
  end.

(** *** Dispatch *)

(** One request against the loaded process: the new process state, the
    response, and the artifact calls made while serving it. *)
Definition handle (p : Process) (r : request) : Process * (response * list call) :=
  match r with
  | GET_root => (p, (HTMLResponse frontend, []))
  | POST_predict body =>
      match validate_HouseFeatures body with
      | inl errors => (p, (RequestValidationError errors, []))
      | inr features => (p, predict_house_price p features)
      end
  end.

(** A request sent to the process: a process that failed to load answers
    nothing. *)
Definition serve (s : proc_state) (r : request)
  : proc_state * option (response * list call) :=
  match s with
  | Crashed e => (Crashed e, None)
  | Serving p => let (p', out) := handle p r in (Serving p', Some out)
  end.

(** A sequence of requests, served one after the other. *)
Fixpoint run (s : proc_state) (rs : list request)
  : proc_state * list (option (response * list call)) :=
  match rs with
  | [] => (s, [])
  | r :: rest =>
      let (s', out) := serve s r in
      let (s'', outs) := run s' rest in
      (s'', out :: outs)
  end.

(** *** What is rejected by the schema *)


(** The object holds for the field a JSON number whose float is [x]: a [JNum]
    as it is, or an integer that a float can hold. *)
Definition holds_number (members : list (string * json)) (name : string) (x : float)
  : Prop :=
  dict_get name members = Some (JNum x) \/
  exists n, dict_get name members = Some (JInt n) /\ int_as_float n = Some x.

(** *** The stages of the pipeline at which an exception is raised *)

Inductive pipeline_raises (p : Process) (features : HouseFeatures) : exn -> Prop :=
| raises_attribute e :
    n_features_in_ (scaler p) = Raise e ->
    pipeline_raises p features e
| raises_width_check n :
    n_features_in_ (scaler p) = Ok n ->
    shape1 (input_data features) <> n ->
    pipeline_raises p features
      (ValueError (width_message n (shape1 (input_data features))))
| raises_transform e :
    n_features_in_ (scaler p) = Ok (shape1 (input_data features)) ->
    transform (scaler p) (input_data features) = Raise e ->
    pipeline_raises p features e
| raises_predict X e :
    n_features_in_ (scaler p) = Ok (shape1 (input_data features)) ->
    transform (scaler p) (input_data features) = Ok X ->
    predict (model p) X = Raise e ->
    pipeline_raises p features e
| raises_first_output X :
    n_features_in_ (scaler p) = Ok (shape1 (input_data features)) ->
    transform (scaler p) (input_data features) = Ok X ->
    predict (model p) X = Ok [] ->
    pipeline_raises p features
      (IndexError "index 0 is out of bounds for axis 0 with size 0")
| raises_product X y ys e :
    n_features_in_ (scaler p) = Ok (shape1 (input_data features)) ->
    transform (scaler p) (input_data features) = Ok X ->
    predict (model p) X = Ok (y :: ys) ->
    times_100000 y = Raise e ->
    pipeline_raises p features e
| raises_response_construction X y ys scaled e :
    n_features_in_ (scaler p) = Ok (shape1 (input_data features)) ->
    transform (scaler p) (input_data features) = Ok X ->
    predict (model p) X = Ok (y :: ys) ->
    times_100000 y = Ok scaled ->
    as_predicted_price scaled = Raise e ->
    pipeline_raises p features e.

(** *** What the schema accepts, and what it reports *)



(** ** Properties of the pipeline stages *)

Lemma shape1_input_data (features : HouseFeatures) :
  shape1 (input_data features) = 5%Z.
Proof. reflexivity. Qed.

Lemma check_width_pass (s : Scaler) (X : matrix) :
  n_features_in_ s = Ok (shape1 X) -> check_width s X = ret tt.
Proof.
  intros Hn. unfold check_width. rewrite Hn. cbn.
  rewrite Z.eqb_refl. reflexivity.
Qed.

Lemma check_width_fail (s : Scaler) (X : matrix) (n : Z) :
  n_features_in_ s = Ok n ->
  shape1 X <> n ->
  check_width s X = raise (ValueError (width_message n (shape1 X))).
Proof.
  intros Hn Hw. unfold check_width. rewrite Hn. cbn.
  apply Z.eqb_neq in Hw. rewrite Hw. reflexivity.
Qed.

Lemma check_width_attribute (s : Scaler) (X : matrix) (e : exn) :
  n_features_in_ s = Raise e -> check_width s X = raise e.
Proof.
  intros Hn. unfold check_width. rewrite Hn. reflexivity.
Qed.

(** The [try] body when the attribute cannot be read: nothing is called. *)
Lemma body_attribute_error (p : Process) (features : HouseFeatures) (e : exn) :
  n_features_in_ (scaler p) = Raise e ->
  predict_house_price_body p features = (Raise e, []).
Proof.
  intros Hn. unfold predict_house_price_body.
  rewrite (check_width_attribute _ _ _ Hn). reflexivity.
Qed.

(** The [try] body when the width check fails: nothing is called. *)
Lemma body_width_mismatch (p : Process) (features : HouseFeatures) (n : Z) :
  n_features_in_ (scaler p) = Ok n ->
  shape1 (input_data features) <> n ->
  predict_house_price_body p features =
  (Raise (ValueError (width_message n 5)), []).
Proof.
  intros Hn Hw. unfold predict_house_price_body.
  rewrite (check_width_fail _ _ _ Hn Hw). reflexivity.
Qed.

Lemma body_transform_raises (p : Process) (features : HouseFeatures) (e : exn) :
  n_features_in_ (scaler p) = Ok (shape1 (input_data features)) ->
  transform (scaler p) (input_data features) = Raise e ->
  predict_house_price_body p features =
  (Raise e, [CallTransform (input_data features)]).
Proof.
  intros Hn Ht. unfold predict_house_price_body.
  rewrite (check_width_pass _ _ Hn).
  unfold call_transform. rewrite Ht. reflexivity.
Qed.

Lemma body_predict_raises (p : Process) (features : HouseFeatures) (X : matrix) (e : exn) :
  n_features_in_ (scaler p) = Ok (shape1 (input_data features)) ->
  transform (scaler p) (input_data features) = Ok X ->
  predict (model p) X = Raise e ->
  predict_house_price_body p features =
  (Raise e, [CallTransform (input_data features); CallPredict X]).
Proof.
  intros Hn Ht Hp. unfold predict_house_price_body.
  rewrite (check_width_pass _ _ Hn).
  unfold call_transform, call_predict. rewrite Ht. cbn. rewrite Hp. reflexivity.
Qed.

Lemma body_first_output_missing (p : Process) (features : HouseFeatures) (X : matrix) :
  n_features_in_ (scaler p) = Ok (shape1 (input_data features)) ->
  transform (scaler p) (input_data features) = Ok X ->
  predict (model p) X = Ok [] ->
  predict_house_price_body p features =
  (Raise (IndexError "index 0 is out of bounds for axis 0 with size 0"),
   [CallTransform (input_data features); CallPredict X]).
Proof.
  intros Hn Ht Hp. unfold predict_house_price_body.
  rewrite (check_width_pass _ _ Hn).
  unfold call_transform, call_predict. rewrite Ht. cbn. rewrite Hp. reflexivity.
Qed.

Lemma body_product_raises (p : Process) (features : HouseFeatures) (X : matrix)
      (y : prediction) (ys : list prediction) (e : exn) :
  n_features_in_ (scaler p) = Ok (shape1 (input_data features)) ->
  transform (scaler p) (input_data features) = Ok X ->
  predict (model p) X = Ok (y :: ys) ->
  times_100000 y = Raise e ->
  predict_house_price_body p features =
  (Raise e, [CallTransform (input_data features); CallPredict X]).
Proof.
  intros Hn Ht Hp Hm. unfold predict_house_price_body.
  rewrite (check_width_pass _ _ Hn).
  unfold call_transform, call_predict. rewrite Ht. cbn. rewrite Hp. cbn.
  rewrite Hm. reflexivity.
Qed.

Lemma body_response_raises (p : Process) (features : HouseFeatures) (X : matrix)
      (y : prediction) (ys : list prediction) (scaled : product) (e : exn) :
  n_features_in_ (scaler p) = Ok (shape1 (input_data features)) ->
  transform (scaler p) (input_data features) = Ok X ->
  predict (model p) X = Ok (y :: ys) ->
  times_100000 y = Ok scaled ->
  as_predicted_price scaled = Raise e ->
  predict_house_price_body p features =
  (Raise e, [CallTransform (input_data features); CallPredict X]).
Proof.
  intros Hn Ht Hp Hm Hv. unfold predict_house_price_body.
  rewrite (check_width_pass _ _ Hn).
  unfold call_transform, call_predict. rewrite Ht. cbn. rewrite Hp. cbn.
  rewrite Hm. cbn. rewrite Hv. reflexivity.
Qed.

Lemma body_success (p : Process) (features : HouseFeatures) (X : matrix)
      (y : prediction) (ys : list prediction) (scaled : product) (price : float) :
  n_features_in_ (scaler p) = Ok (shape1 (input_data features)) ->
  transform (scaler p) (input_data features) = Ok X ->
  predict (model p) X = Ok (y :: ys) ->
  times_100000 y = Ok scaled ->
  as_predicted_price scaled = Ok price ->
  predict_house_price_body p features =
  (Ok {| predicted_price := price; input_features := dict features |},
   [CallTransform (input_data features); CallPredict X]).
Proof.
  intros Hn Ht Hp Hm Hv. unfold predict_house_price_body.
  rewrite (check_width_pass _ _ Hn).
  unfold call_transform, call_predict. rewrite Ht. cbn. rewrite Hp. cbn.
  rewrite Hm. cbn. rewrite Hv. reflexivity.
Qed.

(** The [try] body on a float64 prediction: the product is the binary64
    product, and the response takes it. *)
Lemma body_success_float64 (p : Process) (features : HouseFeatures) (X : matrix)
      (y : float) (ys : list prediction) :
  n_features_in_ (scaler p) = Ok 5%Z ->
  transform (scaler p) (input_data features) = Ok X ->
  predict (model p) X = Ok (float64 y :: ys) ->
  predict_house_price_body p features =
  (Ok {| predicted_price := (y * 100000)%float; input_features := dict features |},
   [CallTransform (input_data features); CallPredict X]).
Proof.
  intros Hn Ht Hp.
  apply (body_success p features X (float64 y) ys
           {| as_predicted_price := Ok (y * 100000)%float |});
    [exact Hn | exact Ht | exact Hp | reflexivity | reflexivity].
Qed.

(** The eight ways the [try] body can go, each with its outcome as a
    hypothesis [Hb]. *)
Ltac pipeline_cases p features :=
  destruct (n_features_in_ (scaler p)) as [n | e] eqn:Hn;
  [ destruct (Z.eq_dec (shape1 (input_data features)) n) as [Hw | Hw];
    [ subst n;
      destruct (transform (scaler p) (input_data features)) as [X | e] eqn:Ht;
      [ destruct (predict (model p) X) as [[| y ys] | e] eqn:Hp;
        [ pose proof (body_first_output_missing p features X Hn Ht Hp) as Hb
        | destruct (times_100000 y) as [scaled | e] eqn:Hm;
          [ destruct (as_predicted_price scaled) as [price | e] eqn:Hv;
            [ pose proof (body_success p features X y ys scaled price Hn Ht Hp Hm Hv) as Hb
            | pose proof (body_response_raises p features X y ys scaled e Hn Ht Hp Hm Hv) as Hb ]
          | pose proof (body_product_raises p features X y ys e Hn Ht Hp Hm) as Hb ]
        | pose proof (body_predict_raises p features X e Hn Ht Hp) as Hb ]
      | pose proof (body_transform_raises p features e Hn Ht) as Hb ]
    | pose proof (body_width_mismatch p features n Hn Hw) as Hb ]
  | pose proof (body_attribute_error p features e Hn) as Hb ].

(** An exception raised at a stage is the outcome of the [try] body. *)
Lemma pipeline_raises_body (p : Process) (features : HouseFeatures) (e : exn) :
  pipeline_raises p features e ->
  exists log, predict_house_price_body p features = (Raise e, log).
Proof.
  intros [e' Hn | n Hn Hw | e' Hn Ht | X e' Hn Ht Hp | X Hn Ht Hp
         | X y ys e' Hn Ht Hp Hm | X y ys scaled e' Hn Ht Hp Hm Hv].
  - eexists. apply (body_attribute_error _ _ _ Hn).
  - eexists. rewrite shape1_input_data. apply (body_width_mismatch _ _ _ Hn Hw).
  - eexists. apply (body_transform_raises _ _ _ Hn Ht).
  - eexists. apply (body_predict_raises _ _ _ _ Hn Ht Hp).
  - eexists. apply (body_first_output_missing _ _ _ Hn Ht Hp).
  - eexists. apply (body_product_raises _ _ _ _ _ _ Hn Ht Hp Hm).
  - eexists. apply (body_response_raises _ _ _ _ _ _ _ Hn Ht Hp Hm Hv).
Qed.

(** Conversely the [try] body raises only what one of the stages raised. *)
Lemma body_raises_pipeline (p : Process) (features : HouseFeatures) (e0 : exn)
      (log : list call) :
  predict_house_price_body p features = (Raise e0, log) ->
  pipeline_raises p features e0.
Proof.
  pipeline_cases p features; rewrite Hb; intros H; try discriminate H;
    injection H as <- _.
  - eapply raises_first_output; eauto.
  - eapply raises_response_construction; eauto.
  - eapply raises_product; eauto.
  - eapply raises_predict; eauto.
  - apply raises_transform; assumption.
  - exact (raises_width_check p features n Hn Hw).
  - apply raises_attribute. exact Hn.
Qed.

(** What the [try] body returns, when it returns: the echo of the features. *)
Lemma body_result_echo (p : Process) (features : HouseFeatures)
      (r : PredictionResponse) (log : list call) :
  predict_house_price_body p features = (Ok r, log) ->
  input_features r = dict features.
Proof.
  pipeline_cases p features; rewrite Hb; intros H; try discriminate H.
  injection H as <- _. reflexivity.
Qed.

(** The schema accepts a number that a float can hold. *)
Lemma validate_field_number (members : list (string * json)) (name : string)
      (x : float) :
  holds_number members name x -> validate_field members name = inr x.
Proof.
  unfold validate_field. intros [H | (n & H & Hn)]; rewrite H; cbn.
  - reflexivity.
  - rewrite Hn. reflexivity.
Qed.

(** The schema accepts an object that holds a number for each field. *)
Lemma validate_numbers (members : list (string * json)) (x1 x2 x3 x4 x5 : float) :
  holds_number members "MedInc" x1 ->
  holds_number members "HouseAge" x2 ->
  holds_number members "AveRooms" x3 ->
  holds_number members "AveBedrms" x4 ->
  holds_number members "AvePop" x5 ->
  validate_HouseFeatures (JObj members) =
  inr {| MedInc := x1; HouseAge := x2; AveRooms := x3; AveBedrms := x4;
         AvePop := x5 |}.
Proof.
  intros H1 H2 H3 H4 H5.
  unfold validate_HouseFeatures.
  rewrite (validate_field_number _ _ _ H1), (validate_field_number _ _ _ H2),
    (validate_field_number _ _ _ H3), (validate_field_number _ _ _ H4),
    (validate_field_number _ _ _ H5).
  reflexivity.
Qed.

(** No request changes the process. *)
Lemma handle_state (p : Process) (r : request) : fst (handle p r) = p.
Proof.
  destruct r as [| body]; cbn; [reflexivity |].
  destruct (validate_HouseFeatures body); reflexivity.
Qed.

Lemma run_state (p : Process) (rs : list request) :
  fst (run (Serving p) rs) = Serving p.
Proof.
  induction rs as [| r rest IH]; cbn; [reflexivity |].
  pose proof (handle_state p r) as Hs.
  destruct (handle p r) as [p' out]. cbn in Hs. subst p'.
  destruct (run (Serving p) rest) as [s'' outs]. exact IH.
Qed.

Lemma run_crashed (e : exn) (rs : list request) :
  run (Crashed e) rs = (Crashed e, map (fun _ => None) rs).
Proof.
  induction rs as [| r rest IH]; cbn; [reflexivity |].
  rewrite IH. reflexivity.
Qed.

Lemma serve_serving (p : Process) (r : request) :
  serve (Serving p) r = (Serving p, Some (snd (handle p r))).
Proof.
  unfold serve. pose proof (handle_state p r) as Hs.
  destruct (handle p r) as [p' out]. cbn in *. subst p'. reflexivity.
Qed.

(** A detail that starts with the prefix of the catch-all contains it. *)
Lemma detail_contains_prediction_error (msg : string) :
  contains "Prediction error" ("Prediction error: " ++ msg) = true.
Proof. reflexivity. Qed.

(** ** The claims about [POST /predict] *)


(** C2. For every validated request whose assembled row has a column count
    different from the scaler's [n_features_in_], the [try] body raises a
    [ValueError] that names both widths, the request is answered with
    status 500 and a detail that contains [Prediction error], and the
    process goes on serving with its state unchanged. *)
Theorem width_mismatch_is_a_request_error
  (p : Process) (body : json) (features : HouseFeatures) (n : Z) :
  validate_HouseFeatures body = inr features ->
  n_features_in_ (scaler p) = Ok n ->
  shape1 (input_data features) <> n ->
  predict_house_price_body p features =
  (Raise (ValueError (width_message n 5)), [])
  /\ serve (Serving p) (POST_predict body) =
     (Serving p,
      Some (HTTPException 500 ("Prediction error: " ++ width_message n 5), []))
  /\ contains "Prediction error"
       ("Prediction error: " ++ width_message n 5) = true
  /\ forall r : request,
       serve (fst (serve (Serving p) (POST_predict body))) r =
       (Serving p, Some (snd (handle p r))).
Proof.
  intros Hv Hn Hw.
  pose proof (body_width_mismatch p features n Hn Hw) as Hb.
  assert (Hs : serve (Serving p) (POST_predict body) =
               (Serving p,
                Some (HTTPException 500
                        ("Prediction error: " ++ width_message n 5), []))).
  { rewrite serve_serving. cbn. rewrite Hv.
    unfold predict_house_price. rewrite Hb. reflexivity. }
  repeat split.
  - exact Hb.
  - exact Hs.
  - intros r. rewrite Hs. cbn [fst]. apply serve_serving.
Qed.

(** C3. Every exception raised while the pipeline runs (by the width check,
    which includes reading the scaler's attribute, by [scaler.transform], by
    [model.predict], by taking the first prediction or multiplying it, or by
    the construction of the response, which validates the price) is caught by
    the handler's single [except Exception] and answered with status 500 and
    the JSON body [{detail: Prediction error: <str(e)>}], the text of the
    exception forwarded as it is. *)
Theorem pipeline_exception_becomes_500
  (p : Process) (body : json) (features : HouseFeatures) (e : exn) :
  validate_HouseFeatures body = inr features ->
  pipeline_raises p features e ->
  exists log,
    handle p (POST_predict body) =
    (p, (HTTPException 500 ("Prediction error: " ++ exc_str e), log))
    /\ status (fst (snd (handle p (POST_predict body)))) = 500%Z
    /\ http_exception_content ("Prediction error: " ++ exc_str e) =
       JObj [("detail", JStr ("Prediction error: " ++ exc_str e))].
Proof.
  intros Hv Hr.
  destruct (pipeline_raises_body _ _ _ Hr) as [log Hb].
  exists log.
  assert (Hh : handle p (POST_predict body) =
               (p, (HTTPException 500 ("Prediction error: " ++ exc_str e), log))).
  { unfold handle. rewrite Hv. unfold predict_house_price. rewrite Hb. reflexivity. }
  repeat split; [exact Hh | rewrite Hh; reflexivity].
Qed.

(** C9. When the scaler's [n_features_in_] is 5, the width check passes for
    every validated request: the assembled matrix has one row of exactly the
    five schema fields, so its column count is 5, the premise of the
    [ValueError] branch is false, and the handler goes on to call
    [scaler.transform] on the assembled row. *)
Theorem width_check_passes_for_five
  (p : Process) (features : HouseFeatures) :
  n_features_in_ (scaler p) = Ok 5%Z ->
  length (input_data features) = 1%nat
  /\ shape1 (input_data features) = 5%Z
  /\ (forall n, n_features_in_ (scaler p) = Ok n ->
                ~ shape1 (input_data features) <> n)
  /\ check_width (scaler p) (input_data features) = ret tt
  /\ exists rest,
       snd (predict_house_price p features) =
       CallTransform (input_data features) :: rest.
Proof.
  intros Hn5. repeat split.
  - intros n Hn Hne. rewrite Hn5 in Hn. injection Hn as <-. apply Hne. reflexivity.
  - apply check_width_pass. exact Hn5.
  - unfold predict_house_price.
    pipeline_cases p features; rewrite Hb; try (eexists; reflexivity).
    + exfalso. injection Hn5 as Hn5. apply Hw. symmetry. exact Hn5.
    + discriminate Hn5.
Qed.

(** ** Validation *)

(** The values that the coercion of a [float] field refuses. *)
Lemma float_validator_none (v : json) :
  float_validator v = None <->
  v = JNull \/ (exists items, v = JArr items) \/ (exists members, v = JObj members)
  \/ (exists s, v = JStr s /\ str_as_float s = None)
  \/ (exists n, v = JInt n /\ int_as_float n = None).
Proof.
  split.
  - destruct v as [| b | x | n | s | items | members]; cbn; intros H;
      try discriminate H; eauto 8.
  - intros [-> | [[items ->] | [[members ->] | [(s & -> & Hs) | (n & -> & Hn)]]]];
      [reflexivity | reflexivity | reflexivity | exact Hs | exact Hn].
Qed.


(** A body that is no object at all is rejected as a whole. *)
Lemma validate_not_an_object (p : Process) (body : json) :
  (forall members, body <> JObj members) ->
  handle p (POST_predict body) =
  (p, (RequestValidationError [{| loc := ["body"]; err_type := dict_type |}], [])).
Proof.
  intros Hb. destruct body; try reflexivity.
  exfalso. eapply Hb. reflexivity.
Qed.



(** ** Module load *)

Lemma startup_model_missing (fs : gmap string fs_node) :
  fs !! MODEL_FILE = None ->
  startup fs =
  Crashed (RuntimeError (" Required file missing: "
                         ++ "[Errno 2] No such file or directory: "
                         ++ py_repr MODEL_FILE)).
Proof.
  intros Hm. unfold startup, load_artifacts, open_rb. rewrite Hm. reflexivity.
Qed.

Lemma startup_scaler_missing (fs : gmap string fs_node) :
  fs !! SCALER_FILE = None -> exists e, startup fs = Crashed e.
Proof.
  intros Hs. unfold startup, load_artifacts, open_rb. rewrite Hs.
  destruct (fs !! MODEL_FILE) as [[data |] |]; cbn.
  - destruct (pickle_load_model data) as [m | e]; cbn.
    + eexists. reflexivity.
    + destruct (String.eqb (exc_class e) "FileNotFoundError"); eexists; reflexivity.
  - eexists. reflexivity.
  - eexists. reflexivity.
Qed.

Lemma startup_serving (fs : gmap string fs_node) (p : Process) :
  startup fs = Serving p ->
  exists model_bytes scaler_bytes,
    fs !! MODEL_FILE = Some (RegularFile model_bytes)
    /\ fs !! SCALER_FILE = Some (RegularFile scaler_bytes)
    /\ pickle_load_model model_bytes = Ok (model p)
    /\ pickle_load_scaler scaler_bytes = Ok (scaler p).
Proof.
  unfold startup, load_artifacts, open_rb, and_then.
  destruct (fs !! MODEL_FILE) as [[dm |] |]; cbv beta iota;
    try (intros H; discriminate H).
  destruct (pickle_load_model dm) as [m | e] eqn:Hm; cbv beta iota.
  2: { destruct (String.eqb (exc_class e) "FileNotFoundError");
       intros H; discriminate H. }
  destruct (fs !! SCALER_FILE) as [[ds |] |]; cbv beta iota;
    try (intros H; discriminate H).
  destruct (pickle_load_scaler ds) as [s | e] eqn:Hsc; cbv beta iota.
  2: { destruct (String.eqb (exc_class e) "FileNotFoundError");
       intros H; discriminate H. }
  intros Hs. injection Hs as <-. exists dm, ds. cbn [model scaler]. auto.
Qed.

(** C6. When the model file or the scaler file is missing, loading the
    module fails with an exception, and the failed process answers no
    request; a missing model file fails it with a [RuntimeError]. When
    loading succeeds, the process state holds the two unpickled artifacts,
    and it holds the same two after any sequence of requests: nothing
    reloads or replaces them. *)
Theorem startup_fails_fast_and_artifacts_stay
  (fs : gmap string fs_node) :
  (fs !! MODEL_FILE = None \/ fs !! SCALER_FILE = None ->
   exists e, startup fs = Crashed e
             /\ forall rs, run (startup fs) rs = (Crashed e, map (fun _ => None) rs))
  /\ (fs !! MODEL_FILE = None ->
      exists msg, startup fs = Crashed (RuntimeError msg))
  /\ (forall p, startup fs = Serving p ->
      (exists model_bytes scaler_bytes,
          fs !! MODEL_FILE = Some (RegularFile model_bytes)
          /\ fs !! SCALER_FILE = Some (RegularFile scaler_bytes)
          /\ pickle_load_model model_bytes = Ok (model p)
          /\ pickle_load_scaler scaler_bytes = Ok (scaler p))
      /\ forall rs, fst (run (startup fs) rs) = Serving p).
Proof.
  split; [| split].
  - intros [Hm | Hs].
    + eexists. split; [apply (startup_model_missing _ Hm) |].
      intros rs. rewrite (startup_model_missing _ Hm). apply run_crashed.
    + destruct (startup_scaler_missing _ Hs) as [e He]. exists e.
      split; [exact He |]. intros rs. rewrite He. apply run_crashed.
  - intros Hm. eexists. apply (startup_model_missing _ Hm).
  - intros p Hp. split; [apply (startup_serving _ _ Hp) |].
    intros rs. rewrite Hp. apply run_state.
Qed.

(** ** Artifacts that differ from what the handler assumes *)


(** ** The frontend route *)

(** C8. [GET /] takes no input and is answered with status 200 and the one
    fixed page, whatever the process served before; the page holds one form,
    and each of the five field names occurs exactly once in the page, inside
    that form. *)
Theorem frontend_is_the_fixed_page (p : Process) (before : list request) :
  serve (fst (run (Serving p) before)) GET_root =
  (Serving p, Some (HTMLResponse frontend, []))
  /\ status (HTMLResponse frontend) = 200%Z
  /\ count_occurrences "<form" frontend = 1%nat
  /\ Forall (fun name => count_occurrences name frontend = 1%nat
                         /\ count_occurrences name (form_of frontend) = 1%nat)
            field_names.
Proof.
  split; [| split; [| split]].
  - rewrite run_state. apply serve_serving.
  - reflexivity.
  - vm_compute. reflexivity.
  - repeat constructor; vm_compute; reflexivity.
Qed.

(** ** Members the schema does not declare *)

Lemma dict_get_app (key : string) (members extra : list (string * json)) :
  dict_get key (members ++ extra) =
  match dict_get key extra with
  | Some v => Some v
  | None => dict_get key members
  end.
Proof.
  induction members as [| [k v] rest IH]; cbn.
  - destruct (dict_get key extra); reflexivity.
  - rewrite IH. destruct (dict_get key extra); reflexivity.
Qed.

Lemma holds_number_app (members extra : list (string * json)) (name : string)
      (x : float) :
  dict_get name extra = None ->
  holds_number members name x ->
  holds_number (members ++ extra) name x.
Proof.
  unfold holds_number. intros He H. rewrite dict_get_app, He. exact H.
Qed.

(** C10. A body that holds the five required numbers and, besides, any
    members the schema does not declare passes validation and is handled as
    the five numbers alone would be: the handler runs on the five values and
    the response is the one the body without the extra members gets. When
    the pipeline succeeds (width 5, transform and predict return, the first
    prediction a float64), that response is the 200 whose [input_features]
    echo holds the five declared fields, in schema order, and nothing else. *)
Theorem undeclared_members_are_ignored
  (p : Process) (members extra : list (string * json)) (x1 x2 x3 x4 x5 : float) :
  holds_number members "MedInc" x1 ->
  holds_number members "HouseAge" x2 ->
  holds_number members "AveRooms" x3 ->
  holds_number members "AveBedrms" x4 ->
  holds_number members "AvePop" x5 ->
  Forall (fun name => dict_get name extra = None) field_names ->
  validate_HouseFeatures (JObj (members ++ extra)) =
  inr {| MedInc := x1; HouseAge := x2; AveRooms := x3; AveBedrms := x4;
         AvePop := x5 |}
  /\ handle p (POST_predict (JObj (members ++ extra))) =
     handle p (POST_predict (JObj members))
  /\ handle p (POST_predict (JObj (members ++ extra))) =
     (p, predict_house_price p
           {| MedInc := x1; HouseAge := x2; AveRooms := x3; AveBedrms := x4;
              AvePop := x5 |})
  /\ forall (X : matrix) (y : float) (ys : list prediction),
       n_features_in_ (scaler p) = Ok 5%Z ->
       transform (scaler p) [[x1; x2; x3; x4; x5]] = Ok X ->
       predict (model p) X = Ok (float64 y :: ys) ->
       handle p (POST_predict (JObj (members ++ extra))) =
       (p, (JSONResponse
              {| predicted_price := (y * 100000)%float;
                 input_features :=
                   [("MedInc", x1); ("HouseAge", x2); ("AveRooms", x3);
                    ("AveBedrms", x4); ("AvePop", x5)] |},
            [CallTransform [[x1; x2; x3; x4; x5]]; CallPredict X]))
       /\ map fst [("MedInc", x1); ("HouseAge", x2); ("AveRooms", x3);
                   ("AveBedrms", x4); ("AvePop", x5)] = field_names.
Proof.
  intros H1 H2 H3 H4 H5 Hex.
  rewrite Stdlib.Lists.List.Forall_forall in Hex.
  assert (Hv : validate_HouseFeatures (JObj (members ++ extra)) =
               inr {| MedInc := x1; HouseAge := x2; AveRooms := x3;
                      AveBedrms := x4; AvePop := x5 |}).
  { apply validate_numbers; apply holds_number_app; try assumption;
      apply Hex; cbn; auto 10. }
  split; [exact Hv |]. split; [| split].
  - unfold handle. rewrite Hv.
    rewrite (validate_numbers _ _ _ _ _ _ H1 H2 H3 H4 H5). reflexivity.
  - unfold handle. rewrite Hv. reflexivity.
  - intros X y ys Hn Ht Hp. split; [| reflexivity].
    unfold handle. rewrite Hv. unfold predict_house_price.
    erewrite body_success_float64; [reflexivity | exact Hn | exact Ht | exact Hp].
Qed.

(** ** Further properties of the handler *)


(** X4. Every error response of the handler has status 500 and the detail
    [Prediction error: ] followed by the text of an exception raised at one
    of the places of the [try] body: reading the scaler's attribute, the
    width check, the two artifact calls, the first prediction, its product,
    the construction of the response. *)
Theorem handler_error_comes_from_a_stage
  (p : Process) (features : HouseFeatures) (code : Z) (detail : string)
  (log : list call) :
  predict_house_price p features = (HTTPException code detail, log) ->
  code = 500%Z
  /\ exists e, pipeline_raises p features e
               /\ detail = ("Prediction error: " ++ exc_str e)%string.
Proof.
  unfold predict_house_price.
  destruct (predict_house_price_body p features) as [[r | e] log'] eqn:Hb;
    intros H; [discriminate H |].
  injection H as <- <- <-. split; [reflexivity |].
  exists e. split; [| reflexivity].
  eapply body_raises_pipeline. exact Hb.
Qed.

(** X5. The artifacts are called in one order only: nothing when the width
    check fails (the attribute cannot be read, or the widths differ),
    otherwise [scaler.transform] once on the assembled row, and then, only
    when it returned, [model.predict] once on what it returned. The model
    never sees the unscaled row. *)
Theorem artifact_calls_are_ordered (p : Process) (features : HouseFeatures) :
  (((exists e, n_features_in_ (scaler p) = Raise e)
    \/ (exists n, n_features_in_ (scaler p) = Ok n
                  /\ shape1 (input_data features) <> n))
   /\ snd (predict_house_price p features) = [])
  \/ (n_features_in_ (scaler p) = Ok (shape1 (input_data features))
      /\ exists e, transform (scaler p) (input_data features) = Raise e
                   /\ snd (predict_house_price p features) =
                      [CallTransform (input_data features)])
  \/ (n_features_in_ (scaler p) = Ok (shape1 (input_data features))
      /\ exists X, transform (scaler p) (input_data features) = Ok X
                   /\ snd (predict_house_price p features) =
                      [CallTransform (input_data features); CallPredict X]).
Proof.
  unfold predict_house_price.
  pipeline_cases p features; rewrite Hb; cbn [snd].
  - right. right. split; [reflexivity |]. exists X. auto.
  - right. right. split; [reflexivity |]. exists X. auto.
  - right. right. split; [reflexivity |]. exists X. auto.
  - right. right. split; [reflexivity |]. exists X. auto.
  - right. right. split; [reflexivity |]. exists X. auto.
  - right. left. split; [reflexivity |]. exists e. auto.
  - left. split; [| reflexivity]. right. exists n. auto.
  - left. split; [| reflexivity]. left. exists e. reflexivity.
Qed.

(** X6. Only the first value of the prediction is used: two models whose
    predictions on the scaled row start with the same value get the same
    response, whatever else they predict. *)
Theorem only_the_first_prediction_counts
  (s : Scaler) (m1 m2 : Model) (features : HouseFeatures) (X : matrix)
  (y : prediction) (ys1 ys2 : list prediction) :
  transform s (input_data features) = Ok X ->
  predict m1 X = Ok (y :: ys1) ->
  predict m2 X = Ok (y :: ys2) ->
  predict_house_price {| model := m1; scaler := s |} features =
  predict_house_price {| model := m2; scaler := s |} features.
Proof.
  intros Ht H1 H2. unfold predict_house_price, predict_house_price_body.
  cbn [model scaler]. unfold call_transform, call_predict.
  destruct (check_width s (input_data features)) as [[[] | e] log]; [| reflexivity].
  rewrite Ht. cbn. rewrite H1, H2. reflexivity.
Qed.

(** X7. A model that returns an empty prediction makes the request fail: the
    [0] index raises [IndexError], and the response is a 500 that forwards
    its text, after both artifacts were called. *)
Theorem empty_prediction_is_500
  (p : Process) (features : HouseFeatures) (X : matrix) :
  n_features_in_ (scaler p) = Ok 5%Z ->
  transform (scaler p) (input_data features) = Ok X ->
  predict (model p) X = Ok [] ->
  predict_house_price p features =
  (HTTPException 500
     "Prediction error: index 0 is out of bounds for axis 0 with size 0",
   [CallTransform (input_data features); CallPredict X]).
Proof.
  intros Hn Ht Hp. unfold predict_house_price.
  rewrite (body_first_output_missing p features X Hn Ht Hp). reflexivity.
Qed.

(** ** Further properties of validation *)


(** What validation does depends on the five declared members only. *)
Lemma validate_ext (members1 members2 : list (string * json)) :
  (forall name, In name field_names ->
                dict_get name members1 = dict_get name members2) ->
  validate_HouseFeatures (JObj members1) = validate_HouseFeatures (JObj members2).
Proof.
  intros H. unfold validate_HouseFeatures, validate_field.
  rewrite (H "MedInc"), (H "HouseAge"), (H "AveRooms"), (H "AveBedrms"),
    (H "AvePop"); [reflexivity | | | | |]; cbn; auto 10.
Qed.

(** The echo of finite features, as it is sent, validates to the same
    features. *)
Lemma validate_echo (features : HouseFeatures) :
  finite_features features = true ->
  validate_HouseFeatures (JObj (members_of_dict (dict features))) = inr features.
Proof.
  destruct features as [x1 x2 x3 x4 x5]. unfold finite_features. cbn.
  intros H.
  apply andb_prop in H as [H H5]. apply andb_prop in H as [H H4].
  apply andb_prop in H as [H H3]. apply andb_prop in H as [H1 H2].
  unfold members_of_dict, dict, json_of_float. cbn.
  rewrite H1, H2, H3, H4, H5. reflexivity.
Qed.


(** X8. The [input_features] of a 200 response to finite features, sent
    back as the body of a request the way the response writes them, validate
    to the features they came from, and the request gets the same
    response. *)
Theorem echo_validates_to_the_same_features
  (p : Process) (features : HouseFeatures) (r : PredictionResponse)
  (log : list call) :
  finite_features features = true ->
  predict_house_price p features = (JSONResponse r, log) ->
  validate_HouseFeatures (JObj (members_of_dict (input_features r))) = inr features
  /\ handle p (POST_predict (JObj (members_of_dict (input_features r)))) =
     (p, (JSONResponse r, log)).
Proof.
  intros Hfin Hr.
  assert (He : input_features r = dict features).
  { unfold predict_house_price in Hr.
    destruct (predict_house_price_body p features) as [[r' | e] log'] eqn:Hb;
      [| discriminate Hr].
    injection Hr as <- _. apply (body_result_echo _ _ _ _ Hb). }
  rewrite He. split; [apply (validate_echo _ Hfin) |].
  unfold handle. rewrite (validate_echo _ Hfin), Hr. reflexivity.
Qed.

(** *** The order of the members *)

Lemma dict_get_Some_In (key : string) (members : list (string * json)) (v : json) :
  dict_get key members = Some v -> In (key, v) members.
Proof using.
  clear str_as_float py_repr BASE_DIR pickle_load_model pickle_load_scaler.
  induction members as [| [k v0] rest IH]; cbn; [discriminate |].
  destruct (dict_get key rest) as [v' |].
  - intros H. injection H as ->. right. apply IH. reflexivity.
  - destruct (String.eqb k key) eqn:Hk; [| discriminate].
    intros H. injection H as ->. apply String.eqb_eq in Hk. subst k. left. reflexivity.
Qed.

Lemma dict_get_None (key : string) (members : list (string * json)) :
  dict_get key members = None <-> ~ In key (map fst members).
Proof using.
  clear str_as_float py_repr BASE_DIR pickle_load_model pickle_load_scaler.
  induction members as [| [k v0] rest IH]; cbn; [tauto |].
  destruct (dict_get key rest) as [v' |].
  - split; [discriminate |]. intros Hn. exfalso.
    destruct IH as [_ IH]. discriminate IH. tauto.
  - destruct (String.eqb k key) eqn:Hk.
    + apply String.eqb_eq in Hk. split; [discriminate | tauto].
    + apply String.eqb_neq in Hk. destruct IH as [IH _]. specialize (IH eq_refl).
      tauto.
Qed.

Lemma In_dict_get (key : string) (members : list (string * json)) (v : json) :
  List.NoDup (map fst members) -> In (key, v) members ->
  dict_get key members = Some v.
Proof using.
  clear str_as_float py_repr BASE_DIR pickle_load_model pickle_load_scaler.
  induction members as [| [k v0] rest IH]; cbn; [tauto |].
  intros Hnd Hin. inversion Hnd as [| k' ks Hk Hrest]; subst.
  destruct Hin as [Heq | Hin].
  - injection Heq as -> ->.
    apply dict_get_None in Hk. rewrite Hk, String.eqb_refl. reflexivity.
  - rewrite (IH Hrest Hin). reflexivity.
Qed.

Lemma dict_get_permutation (key : string) (members1 members2 : list (string * json)) :
  List.NoDup (map fst members1) -> Permutation members1 members2 ->
  dict_get key members1 = dict_get key members2.
Proof using.
  clear str_as_float py_repr BASE_DIR pickle_load_model pickle_load_scaler.
  intros Hnd Hp.
  assert (Hnd2 : List.NoDup (map fst members2)).
  { eapply Permutation_NoDup; [| exact Hnd]. apply Permutation_map. exact Hp. }
  destruct (dict_get key members1) as [v |] eqn:H1.
  - symmetry. apply In_dict_get; [exact Hnd2 |].
    eapply Permutation_in; [exact Hp |]. apply dict_get_Some_In. exact H1.
  - symmetry. apply dict_get_None. apply dict_get_None in H1.
    intros Hin. apply H1.
    eapply Permutation_in; [| exact Hin].
    apply Permutation_map. symmetry. exact Hp.
Qed.

(** X9. The order in which a request lists its members does not matter: two
    objects with the same members, no key twice, get the same response. The
    row handed to the scaler is in schema order either way. *)
Theorem member_order_is_irrelevant
  (p : Process) (members1 members2 : list (string * json)) :
  List.NoDup (map fst members1) ->
  Permutation members1 members2 ->
  handle p (POST_predict (JObj members1)) = handle p (POST_predict (JObj members2)).
Proof.
  intros Hnd Hp. unfold handle.
  rewrite (validate_ext members1 members2); [reflexivity |].
  intros name _. apply dict_get_permutation; assumption.
Qed.

(** *** The form and the schema *)


(** ** Further properties of the module load *)

Lemma append_cancel_l (a x y : string) : (a ++ x = a ++ y -> x = y)%string.
Proof using.
  clear str_as_float py_repr BASE_DIR pickle_load_model pickle_load_scaler.
  induction a as [| c a IH]; cbn; [tauto |].
  intros H. injection H as H. apply IH. exact H.
Qed.

Lemma prefix_append (a x : string) : String.prefix a (a ++ x) = true.
Proof using.
  clear str_as_float py_repr BASE_DIR pickle_load_model pickle_load_scaler.
  induction a as [| c a IH]; simpl; [destruct x; reflexivity |].
  destruct (ascii_dec c c) as [_ | Hc]; [exact IH | contradiction].
Qed.

(** X13. The model and the scaler are read from two different files, both
    of them inside the directory of the module, whatever that directory
    is. *)
Theorem artifact_paths_differ :
  MODEL_FILE <> SCALER_FILE
  /\ String.prefix BASE_DIR MODEL_FILE = true
  /\ String.prefix BASE_DIR SCALER_FILE = true.
Proof using BASE_DIR.
  clear str_as_float py_repr pickle_load_model pickle_load_scaler.
  unfold MODEL_FILE, SCALER_FILE, os_path_join. cbn [String.prefix].
  destruct (String.eqb BASE_DIR EmptyString || ends_with_sep BASE_DIR);
    (split; [intros H; apply append_cancel_l in H; discriminate H |]);
    split; apply prefix_append.
Qed.

(** X10. The module loads exactly when both files are regular files that
    unpickle; the process then holds what the two files unpickle to. *)
Theorem startup_serves_iff (fs : gmap string fs_node) (p : Process) :
  startup fs = Serving p <->
  exists model_bytes scaler_bytes,
    fs !! MODEL_FILE = Some (RegularFile model_bytes)
    /\ fs !! SCALER_FILE = Some (RegularFile scaler_bytes)
    /\ pickle_load_model model_bytes = Ok (model p)
    /\ pickle_load_scaler scaler_bytes = Ok (scaler p).
Proof.
  split; [apply startup_serving |].
  intros (dm & ds & Hm & Hs & Hlm & Hls).
  unfold startup, load_artifacts, open_rb, and_then.
  rewrite Hm, Hlm, Hs, Hls. destruct p. reflexivity.
Qed.

(** X11. When the model file loads and the scaler file is missing, the
    module fails with the [RuntimeError] that names the scaler file, the way
    [repr] writes its path. *)
Theorem missing_scaler_is_named
  (fs : gmap string fs_node) (model_bytes : list Byte.byte) (m : Model) :
  fs !! MODEL_FILE = Some (RegularFile model_bytes) ->
  pickle_load_model model_bytes = Ok m ->
  fs !! SCALER_FILE = None ->
  startup fs =
  Crashed (RuntimeError (" Required file missing: "
                         ++ "[Errno 2] No such file or directory: "
                         ++ py_repr SCALER_FILE)).
Proof.
  intros Hm Hlm Hs. unfold startup, load_artifacts, open_rb, and_then.
  rewrite Hm, Hlm, Hs. reflexivity.
Qed.

(** X12. Only a missing file is turned into a [RuntimeError]. A directory in
    the place of the model file, or a model file that does not unpickle,
    makes the module fail with the exception as it was raised, and the scaler
    file is not looked at. *)
Theorem other_load_errors_are_not_rewrapped (fs : gmap string fs_node) :
  (fs !! MODEL_FILE = Some Directory ->
   startup fs =
   Crashed (IsADirectoryError ("[Errno 21] Is a directory: " ++ py_repr MODEL_FILE)))
  /\ (forall model_bytes e,
        fs !! MODEL_FILE = Some (RegularFile model_bytes) ->
        pickle_load_model model_bytes = Raise e ->
        exc_class e <> "FileNotFoundError" ->
        startup fs = Crashed e).
Proof.
  split.
  - intros Hm. unfold startup, load_artifacts, open_rb, and_then.
    rewrite Hm. reflexivity.
  - intros dm e Hm Hlm Hc. unfold startup, load_artifacts, open_rb, and_then.
    rewrite Hm, Hlm. apply String.eqb_neq in Hc. rewrite Hc. reflexivity.
Qed.

End Service.

(** ** Closed instances *)



(** C2, an instance: the sample request against the eight-column scaler. *)
Lemma width_mismatch_is_a_request_error_sample :
  predict_house_price_body mismatched_process sample_features =
  (Raise (ValueError "Scaler expects 8 features, got 5"), [])
  /\ serve digits_as_float (Serving mismatched_process)
       (POST_predict (JObj sample_members)) =
     (Serving mismatched_process,
      Some (HTTPException 500 "Prediction error: Scaler expects 8 features, got 5",
            []))
  /\ contains "Prediction error"
       "Prediction error: Scaler expects 8 features, got 5" = true
  /\ forall r : request,
       serve digits_as_float
         (fst (serve digits_as_float (Serving mismatched_process)
                 (POST_predict (JObj sample_members)))) r =
       (Serving mismatched_process,
        Some (snd (handle digits_as_float mismatched_process r))).
Proof.
  apply (width_mismatch_is_a_request_error digits_as_float mismatched_process
           (JObj sample_members) sample_features 8%Z).
  - reflexivity.
  - reflexivity.
  - vm_compute. discriminate.
Defined.

(** C3, an instance: a prediction that the response refuses as a price. *)
Lemma pipeline_exception_becomes_500_sample :
  exists log,
    handle digits_as_float text_process (POST_predict (JObj sample_members)) =
    (text_process,
     (HTTPException 500
        "Prediction error: 1 validation error for PredictionResponse", log))
    /\ status (fst (snd (handle digits_as_float text_process
                           (POST_predict (JObj sample_members))))) = 500%Z
    /\ http_exception_content
         "Prediction error: 1 validation error for PredictionResponse" =
       JObj [("detail",
              JStr "Prediction error: 1 validation error for PredictionResponse")].
Proof.
  apply (pipeline_exception_becomes_500 digits_as_float text_process
           (JObj sample_members) sample_features
           (ValidationError "1 validation error for PredictionResponse")).
  - reflexivity.
  - apply (raises_response_construction text_process sample_features
             (input_data sample_features) text_prediction []
             {| as_predicted_price :=
                  Raise (ValidationError "1 validation error for PredictionResponse") |});
      reflexivity.
Defined.



(** C6, an instance: with only the model file in place the module fails to
    load and answers nothing; with no file at all it fails with a
    [RuntimeError]; with both files in place the process serves with the
    unpickled artifacts, whatever it is sent. *)
Lemma startup_fails_fast_and_artifacts_stay_sample :
  (exists e,
      startup plain_repr "/srv/app" (load_always (model sample_process))
        (load_always (scaler sample_process)) model_only_fs = Crashed e
      /\ forall rs,
           run digits_as_float
             (startup plain_repr "/srv/app" (load_always (model sample_process))
                (load_always (scaler sample_process)) model_only_fs) rs =
           (Crashed e, map (fun _ => None) rs))
  /\ (exists msg,
         startup plain_repr "/srv/app" (load_always (model sample_process))
           (load_always (scaler sample_process)) ∅ = Crashed (RuntimeError msg))
  /\ forall rs,
       fst (run digits_as_float
              (startup plain_repr "/srv/app" (load_always (model sample_process))
                 (load_always (scaler sample_process)) loaded_fs) rs) =
       Serving sample_process.
Proof.
  split; [| split].
  - apply (proj1 (startup_fails_fast_and_artifacts_stay digits_as_float plain_repr
                    "/srv/app"
                    (load_always (model sample_process))
                    (load_always (scaler sample_process)) model_only_fs)).
    right. vm_compute. reflexivity.
  - apply (proj1 (proj2 (startup_fails_fast_and_artifacts_stay digits_as_float
                           plain_repr "/srv/app"
                           (load_always (model sample_process))
                           (load_always (scaler sample_process)) ∅))).
    vm_compute. reflexivity.
  - apply (proj2 (proj2 (startup_fails_fast_and_artifacts_stay digits_as_float
                           plain_repr "/srv/app"
                           (load_always (model sample_process))
                           (load_always (scaler sample_process)) loaded_fs))
             sample_process).
    vm_compute. reflexivity.
Defined.



(** C9, an instance: the stub scaler fitted on five columns. *)
Lemma width_check_passes_for_five_sample :
  length (input_data sample_features) = 1%nat
  /\ shape1 (input_data sample_features) = 5%Z
  /\ (forall n, n_features_in_ (scaler sample_process) = Ok n ->
                ~ shape1 (input_data sample_features) <> n)
  /\ check_width (scaler sample_process) (input_data sample_features) = ret tt
  /\ exists rest,
       snd (predict_house_price sample_process sample_features) =
       CallTransform (input_data sample_features) :: rest.
Proof.
  apply (width_check_passes_for_five sample_process sample_features).
  reflexivity.
Defined.

(** C10, an instance: the sample request with three undeclared members gets
    the 200 response of the sample request. *)
Lemma undeclared_members_are_ignored_sample :
  validate_HouseFeatures digits_as_float (JObj (sample_members ++ extra_members)) =
  inr sample_features
  /\ handle digits_as_float sample_process
       (POST_predict (JObj (sample_members ++ extra_members))) =
     handle digits_as_float sample_process (POST_predict (JObj sample_members))
  /\ handle digits_as_float sample_process
       (POST_predict (JObj (sample_members ++ extra_members))) =
     (sample_process,
      (JSONResponse {| predicted_price := (sample_prediction * 100000)%float;
                       input_features := dict sample_features |},
       [CallTransform (input_data sample_features);
        CallPredict (input_data sample_features)]))
  /\ map fst (dict sample_features) = field_names.
Proof.
  assert (Hex : Forall (fun name => dict_get name extra_members = None) field_names)
    by (repeat constructor).
  assert (H := undeclared_members_are_ignored digits_as_float sample_process
                 sample_members extra_members
                 (MedInc sample_features) (HouseAge sample_features)
                 (AveRooms sample_features) (AveBedrms sample_features)
                 (AvePop sample_features)
                 (or_introl eq_refl) (or_introl eq_refl) (or_introl eq_refl)
                 (or_introl eq_refl) (or_introl eq_refl) Hex).
  destruct H as (Hv & Hsame & _ & Hok).
  destruct (Hok (input_data sample_features) sample_prediction []
              eq_refl eq_refl eq_refl) as [Hresp Hkeys].
  exact (conj Hv (conj Hsame (conj Hresp Hkeys))).
Defined.

(** ** Closed instances of the further properties *)


(** X4, an instance: the error response for a prediction that is no
    number. *)
Lemma handler_error_comes_from_a_stage_sample :
  500%Z = 500%Z
  /\ exists e, pipeline_raises text_process sample_features e
               /\ "Prediction error: 1 validation error for PredictionResponse" =
                  ("Prediction error: " ++ exc_str e)%string.
Proof.
  apply (handler_error_comes_from_a_stage text_process sample_features
           500 "Prediction error: 1 validation error for PredictionResponse"
           [CallTransform (input_data sample_features);
            CallPredict (input_data sample_features)]).
  reflexivity.
Defined.

(** X6, an instance: a model with a second output behind the same scaler. *)
Lemma only_the_first_prediction_counts_sample :
  predict_house_price
    {| model := constant_model sample_prediction; scaler := identity_scaler 5 |}
    sample_features =
  predict_house_price
    {| model := two_output_model sample_prediction 0; scaler := identity_scaler 5 |}
    sample_features.
Proof.
  apply (only_the_first_prediction_counts (identity_scaler 5)
           (constant_model sample_prediction)
           (two_output_model sample_prediction 0)
           sample_features (input_data sample_features)
           (float64 sample_prediction) [] [float64 0]);
    reflexivity.
Defined.

(** X7, an instance: the model that predicts nothing. *)
Lemma empty_prediction_is_500_sample :
  predict_house_price {| model := empty_model; scaler := identity_scaler 5 |}
    sample_features =
  (HTTPException 500
     "Prediction error: index 0 is out of bounds for axis 0 with size 0",
   [CallTransform (input_data sample_features);
    CallPredict (input_data sample_features)]).
Proof.
  apply (empty_prediction_is_500
           {| model := empty_model; scaler := identity_scaler 5 |}
           sample_features (input_data sample_features));
    reflexivity.
Defined.

(** X8, an instance: the echo of the sample response. *)
Lemma echo_validates_to_the_same_features_sample :
  validate_HouseFeatures digits_as_float
    (JObj (members_of_dict (dict sample_features))) = inr sample_features
  /\ handle digits_as_float sample_process
       (POST_predict (JObj (members_of_dict (dict sample_features)))) =
     (sample_process,
      (JSONResponse {| predicted_price := (sample_prediction * 100000)%float;
                       input_features := dict sample_features |},
       [CallTransform (input_data sample_features);
        CallPredict (input_data sample_features)])).
Proof.
  apply (echo_validates_to_the_same_features digits_as_float sample_process
           sample_features
           {| predicted_price := (sample_prediction * 100000)%float;
              input_features := dict sample_features |}
           [CallTransform (input_data sample_features);
            CallPredict (input_data sample_features)]).
  - vm_compute. reflexivity.
  - reflexivity.
Defined.

(** X9, an instance: the sample request with its members in the opposite
    order. *)
Lemma member_order_is_irrelevant_sample :
  handle digits_as_float sample_process (POST_predict (JObj sample_members)) =
  handle digits_as_float sample_process (POST_predict (JObj shuffled_members)).
Proof.
  apply (member_order_is_irrelevant digits_as_float sample_process
           sample_members shuffled_members).
  - repeat constructor; cbn; intuition discriminate.
  - apply (Permutation_rev sample_members).
Defined.

(** X11, an instance: the directory that holds the model file only. *)
Lemma missing_scaler_is_named_sample :
  startup plain_repr "/srv/app" (load_always (model sample_process))
    (load_always (scaler sample_process)) model_only_fs =
  Crashed (RuntimeError
             " Required file missing: [Errno 2] No such file or directory: '/srv/app/scaler.pkl'").
Proof.
  apply (missing_scaler_is_named plain_repr "/srv/app"
           (load_always (model sample_process))
           (load_always (scaler sample_process)) model_only_fs []
           (model sample_process)).
  - vm_compute. reflexivity.
  - reflexivity.
  - vm_compute. reflexivity.
Defined.

(** X12, an instance: a directory in the place of the model file, and a
    model file that does not unpickle. *)
Lemma other_load_errors_are_not_rewrapped_sample :
  startup plain_repr "/srv/app" (load_always (model sample_process))
    (load_always (scaler sample_process)) directory_fs =
  Crashed (IsADirectoryError
             "[Errno 21] Is a directory: '/srv/app/linear_regression_model.pkl'")
  /\ startup plain_repr "/srv/app"
       (load_never (Exception "UnpicklingError" "invalid load key"))
       (load_always (scaler sample_process)) loaded_fs =
     Crashed (Exception "UnpicklingError" "invalid load key").
Proof.
  split.
  - apply (proj1 (other_load_errors_are_not_rewrapped plain_repr "/srv/app"
                    (load_always (model sample_process))
                    (load_always (scaler sample_process)) directory_fs)).
    vm_compute. reflexivity.
  - apply (proj2 (other_load_errors_are_not_rewrapped plain_repr "/srv/app"
                    (load_never (Exception "UnpicklingError" "invalid load key"))
                    (load_always (scaler sample_process)) loaded_fs) []).
    + vm_compute. reflexivity.
    + reflexivity.
    + cbn. discriminate.
Defined.
